(** * tinyrpc.protocols: the protocol base classes

    A shallow embedding of [tinyrpc/protocols/__init__.py].  The module
    defines eight classes over the builtins [object] and [list]; their
    bodies are class attributes and methods, and every method body is the
    single statement [raise RuntimeError('Not implemented')].

    The embedding keeps what the Python program has: classes with their
    base lists, the method resolution order computed by C3 linearisation,
    class namespaces as finite maps from names to attributes, attribute
    lookup along the MRO, and calls that either return a value or raise an
    exception. *)

From stdpp Require Import base option list strings gmap.
From Stdlib Require Import ZArith.

Local Open Scope string_scope.

(** ** Values and exceptions *)

(** The classes of the module, with the two builtins they derive from. *)
Inductive cls : Type :=
  | object
  | list_
  | RPCRequest
  | RPCBatchRequest
  | RPCResponse
  | RPCBatchResponse
  | RPCErrorResponse
  | RPCSuccessResponse
  | RPCProtocol
  | RPCBatchProtocol.

Global Instance cls_eq_dec : EqDecision cls.
Proof. solve_decision. Defined.

(** Exception classes.  [RuntimeError], [AttributeError] and [TypeError]
    are Python builtins.  The module also star-imports [..exc], which is
    not part of this file: the error classes it exports (the [RPCError]
    family the docstrings mention) are kept apart under [ExcModule], by
    name. *)
Inductive exc_class : Type :=
  | RuntimeError
  | AttributeError
  | TypeError
  | ExcModule (name : string).

Global Instance exc_class_eq_dec : EqDecision exc_class.
Proof. solve_decision. Defined.

(** Python values, as far as the module handles them: constants, strings
    and byte strings, sequences, mappings, exception objects and instances
    of the classes above.  The module defines no [__init__] and assigns
    no instance attribute, so an instance is its class together with, for
    the [list] subclasses, its items; its attributes are those of its
    class. *)
#[warnings="-register-all"]
Inductive value : Type :=
  | VNone
  | VBool (b : bool)
  | VInt (z : Z)
  | VStr (s : string)
  | VBytes (s : string)
  | VList (items : list value)
  | VDict (entries : list (string * value))
  | VExc (c : exc_class) (msg : string)
  | VInst (c : cls) (items : list value).

(** A raised exception: its class and its argument. *)
Record exn : Type := Exn { exn_class : exc_class; exn_msg : string }.

Global Instance exn_eq_dec : EqDecision exn.
Proof. solve_decision. Defined.

(** The outcome of evaluating a call. *)
Inductive outcome (A : Type) : Type :=
  | Return (a : A)
  | Raise (e : exn).
Arguments Return {A} a.
Arguments Raise {A} e.

(** Sequencing: an exception raised by the first call propagates. *)
Global Instance outcome_ret : MRet outcome := λ A a, Return a.
Global Instance outcome_bind : MBind outcome := λ A B k m,
  match m with
  | Return a => k a
  | Raise e => Raise e
  end.

Definition returns {A : Type} (m : outcome A) : bool :=
  match m with Return _ => true | Raise _ => false end.

(** [raise RuntimeError('Not implemented')]. *)
Definition not_implemented {A : Type} : outcome A :=
  Raise (Exn RuntimeError "Not implemented").

(** ** The class hierarchy *)

(** The base list of each [class] statement. *)
Definition bases (c : cls) : list cls :=
  match c with
  | object => []
  | list_ => [object]
  | RPCRequest => [object]
  | RPCBatchRequest => [list_; RPCRequest]
  | RPCResponse => [object]
  | RPCBatchResponse => [list_; RPCResponse]
  | RPCErrorResponse => [RPCResponse]
  | RPCSuccessResponse => [RPCResponse]
  | RPCProtocol => [object]
  | RPCBatchProtocol => [RPCProtocol]
  end.

(** C3 linearisation, the method resolution order of new-style classes. *)
Definition in_tail (c : cls) (s : list cls) : bool :=
  match s with
  | [] => false
  | _ :: t => bool_decide (c ∈ t)
  end.

Definition good_head (seqs : list (list cls)) (c : cls) : bool :=
  forallb (λ s, negb (in_tail c s)) seqs.

Fixpoint pick_head (all seqs : list (list cls)) : option cls :=
  match seqs with
  | [] => None
  | [] :: rest => pick_head all rest
  | (c :: _) :: rest => if good_head all c then Some c else pick_head all rest
  end.

Definition drop_head (c : cls) (s : list cls) : list cls :=
  match s with
  | c' :: t => if decide (c' = c) then t else s
  | [] => []
  end.

Definition nonempty (s : list cls) : bool :=
  match s with [] => false | _ => true end.

Fixpoint c3_merge (fuel : nat) (seqs : list (list cls)) : option (list cls) :=
  match fuel with
  | O => None
  | S fuel =>
      let seqs := filter (λ s, nonempty s = true) seqs in
      match seqs with
      | [] => Some []
      | _ =>
          c ← pick_head seqs seqs;
          rest ← c3_merge fuel (drop_head c <$> seqs);
          Some (c :: rest)
      end
  end.

Fixpoint mro_fuel (fuel : nat) (c : cls) : option (list cls) :=
  match fuel with
  | O => None
  | S fuel =>
      lins ← mapM (mro_fuel fuel) (bases c);
      rest ← c3_merge (S (length (concat lins) + length (bases c)))
                      (lins ++ [bases c]);
      Some (c :: rest)
  end.

(** The hierarchy is three levels deep at most; four units of fuel reach
    every class ([mro_total] below). *)
Definition mro (c : cls) : list cls := default [c] (mro_fuel 4 c).

Definition issubclass (c d : cls) : bool := bool_decide (d ∈ mro c).


(** ** Method bodies *)

(** Each [def] of the module, with its parameters in source order.  A
    parameter with a default is passed explicitly; the defaults are kept
    with the function in the class namespace below. *)

Definition RPCRequest_error_respond (self error : value) : outcome value :=
  not_implemented.

Definition RPCRequest_respond (self result : value) : outcome value :=
  not_implemented.

Definition RPCRequest_serialize (self : value) : outcome value :=
  not_implemented.

Definition RPCResponse_serialize (self : value) : outcome value :=
  not_implemented.

Definition RPCBatchResponse_create_batch_response (self : value)
  : outcome value :=
  not_implemented.

Definition RPCBatchResponse_serialize (self : value) : outcome value :=
  not_implemented.

Definition RPCProtocol_create_request
  (self method args kwargs one_way : value) : outcome value :=
  not_implemented.

Definition RPCProtocol_create_error_response (self error : value)
  : outcome value :=
  not_implemented.

Definition RPCProtocol_parse_request (self data : value) : outcome value :=
  not_implemented.

Definition RPCProtocol_parse_reply (self data : value) : outcome value :=
  not_implemented.

Definition RPCBatchProtocol_create_batch_request (self requests : value)
  : outcome value :=
  not_implemented.

(** ** Class namespaces *)

(** A function object: its body and the defaults of its optional
    parameters.  The shapes are those of the module's signatures:
    [f(self)], [f(self, a)], [f(self, a=d)] and
    [f(self, a, b=d2, c=d3, d=d4)]. *)
Inductive pyfunc : Type :=
  | Fn0 (body : value → outcome value)
  | Fn1 (body : value → value → outcome value)
  | Fn1d (d : value) (body : value → value → outcome value)
  | Fn4d (d2 d3 d4 : value)
         (body : value → value → value → value → value → outcome value).

Inductive attr : Type :=
  | Data (v : value)
  | Method (f : pyfunc).

(** The names each class body binds.  The embedding resolves these
    seventeen names ([module_names] below) and no other: the names a
    class statement binds implicitly ([__doc__], [__module__] and the
    like) and the attributes of the builtins [object] and [list], none of
    which is one of the seventeen, are outside it, and the namespaces of
    the two builtins are left empty. *)
Definition class_dict (c : cls) : gmap string attr :=
  match c with
  | object => ∅
  | list_ => ∅
  | RPCRequest =>
      list_to_map
        [ ("unique_id", Data VNone);
          ("method", Data VNone);
          ("args", Data VNone);
          ("kwargs", Data VNone);
          ("error_respond", Method (Fn1 RPCRequest_error_respond));
          ("respond", Method (Fn1 RPCRequest_respond));
          ("serialize", Method (Fn0 RPCRequest_serialize)) ]
  | RPCBatchRequest => ∅
  | RPCResponse =>
      list_to_map
        [ ("is_error", Data (VBool false));
          ("serialize", Method (Fn0 RPCResponse_serialize)) ]
  | RPCBatchResponse =>
      list_to_map
        [ ("create_batch_response",
             Method (Fn0 RPCBatchResponse_create_batch_response));
          ("serialize", Method (Fn0 RPCBatchResponse_serialize)) ]
  | RPCErrorResponse =>
      list_to_map
        [ ("is_error", Data (VBool true));
          ("error", Data VNone) ]
  | RPCSuccessResponse =>
      list_to_map
        [ ("is_error", Data (VBool false));
          ("result", Data VNone) ]
  | RPCProtocol =>
      list_to_map
        [ ("supports_out_of_order", Data (VBool false));
          ("create_request",
             Method (Fn4d VNone VNone (VBool false)
                       RPCProtocol_create_request));
          ("create_error_response",
             Method (Fn1 RPCProtocol_create_error_response));
          ("parse_request", Method (Fn1 RPCProtocol_parse_request));
          ("parse_reply", Method (Fn1 RPCProtocol_parse_reply)) ]
  | RPCBatchProtocol =>
      list_to_map
        [ ("create_batch_request",
             Method (Fn1d VNone RPCBatchProtocol_create_batch_request)) ]
  end.

(** ** Attribute lookup and calls *)

(** The first class along the MRO whose namespace binds the name. *)
Fixpoint lookup_along (l : list cls) (name : string) : option attr :=
  match l with
  | [] => None
  | c :: l =>
      match class_dict c !! name with
      | Some a => Some a
      | None => lookup_along l name
      end
  end.

Definition class_getattr (c : cls) (name : string) : option attr :=
  lookup_along (mro c) name.

(** The class that provides the attribute, if any. *)
Fixpoint provider_along (l : list cls) (name : string) : option cls :=
  match l with
  | [] => None
  | c :: l =>
      if bool_decide (is_Some (class_dict c !! name)) then Some c
      else provider_along l name
  end.

Definition provider (c : cls) (name : string) : option cls :=
  provider_along (mro c) name.

(** [o.name].  Only instances of the module's classes carry the module's
    attributes; on any other value these names are missing. *)
Definition getattr (o : value) (name : string) : outcome attr :=
  match o with
  | VInst c _ =>
      match class_getattr c name with
      | Some a => Return a
      | None => Raise (Exn AttributeError name)
      end
  | _ => Raise (Exn AttributeError name)
  end.

(** Calling a function object with [self] and positional arguments:
    omitted trailing arguments take their defaults, any other number of
    arguments is a [TypeError]. *)
Definition call (f : pyfunc) (self : value) (args : list value)
  : outcome value :=
  match f, args with
  | Fn0 body, [] => body self
  | Fn1 body, [a] => body self a
  | Fn1d d body, [] => body self d
  | Fn1d _ body, [a] => body self a
  | Fn4d d2 d3 d4 body, [a] => body self a d2 d3 d4
  | Fn4d _ d3 d4 body, [a; b] => body self a b d3 d4
  | Fn4d _ _ d4 body, [a; b; c] => body self a b c d4
  | Fn4d _ _ _ body, [a; b; c; d] => body self a b c d
  | _, _ => Raise (Exn TypeError "arguments")
  end.

(** [o.name(args)]. *)
Definition invoke (o : value) (name : string) (args : list value)
  : outcome value :=
  a ← getattr o name;
  match a with
  | Method f => call f o args
  | Data _ => Raise (Exn TypeError "not callable")
  end.

(** Calling a class: none defines [__init__], so [C()] is a bare
    instance, and for the [list] subclasses [C(items)] holds the items. *)
Definition new (c : cls) : value := VInst c [].
Definition new_list (c : cls) (items : list value) : value := VInst c items.

(** [isinstance(v, c)] for the module's classes. *)
Definition isinstance (v : value) (c : cls) : bool :=
  match v with
  | VInst c' _ => issubclass c' c
  | _ => false
  end.

(** [o.is_error], [r.unique_id], [p.supports_out_of_order] as read by a
    caller. *)
Definition data_attr (o : value) (name : string) : outcome value :=
  a ← getattr o name;
  match a with
  | Data v => Return v
  | Method _ => Raise (Exn TypeError "bound method")
  end.

(** [if o.is_error:] as a caller tests it. *)
Definition is_error_true (o : value) : bool :=
  match data_attr o "is_error" with
  | Return (VBool true) => true
  | _ => false
  end.

(** Whether an exception class comes from [..exc] (the [RPCError]
    family) rather than from the builtins. *)
Definition from_exc_module (c : exc_class) : bool :=
  match c with
  | ExcModule _ => true
  | _ => false
  end.

(** What a caller observes of an evaluation: the value returned, or the
    class of the exception raised. *)
Definition observe {A : Type} (m : outcome A) : A + exc_class :=
  match m with
  | Return a => inl a
  | Raise e => inr (exn_class e)
  end.

(** The names the class bodies of the module bind. *)
Definition module_names : list string :=
  [ "unique_id"; "method"; "args"; "kwargs"; "error_respond"; "respond";
    "serialize"; "is_error"; "create_batch_response"; "error"; "result";
    "supports_out_of_order"; "create_request"; "create_error_response";
    "parse_request"; "parse_reply"; "create_batch_request" ].

(** ** Attributes assigned on an instance *)








(** * Collecting the replies of a batch *)

(** The source declares the two batch containers, both subclasses of
    [list], and states in the docstring of [RPCBatchRequest] that a batch
    is handled in any order while the responses are gathered in the order
    of their requests.  The code that handles the items and fills the
    batch response belongs to the dispatcher, which is not part of
    [tinyrpc/protocols/__init__.py]. *)
Module BatchAssembly.
Section model.
Context {item response : Type}.

(** Modelled from the spec: whether an item of the batch is a one-way
    request, one that expects no reply.  The dispatcher and the concrete
    requests are missing from the source. *)
Variable one_way : item → bool.

(** Modelled from the spec: the response that handling a reply-expecting
    item yields, through [respond] or [error_respond] of a request or as
    the error response an error marker resolves into.  The dispatcher is
    missing from the source. *)
Variable answer : item → response.

(** Modelled from the spec: the outcome of handling one item, absent
    when the item is one-way.  The dispatcher is missing from the
    source. *)
Definition reply (r : item) : option response :=
  if one_way r then None else Some (answer r).

(** Modelled from the spec: the items of a batch that expect a reply, in
    their original order.  The dispatcher is missing from the source. *)
Definition reply_expecting (batch : list item) : list item :=
  filter (λ r, one_way r = false) batch.

(** Modelled from the spec: the record of replies while a batch is being
    handled; every item keeps its position, also a one-way item, whose
    place stays empty.  The dispatcher is missing from the source. *)
Definition empty_slots (batch : list item) : list (option response) :=
  replicate (length batch) None.

(** Modelled from the spec: handling the item at one position records
    its reply at that position.  The dispatcher is missing from the
    source. *)
Definition handle (batch : list item) (slots : list (option response))
    (pos : nat) : list (option response) :=
  match batch !! pos with
  | Some r => <[pos := reply r]> slots
  | None => slots
  end.

(** Modelled from the spec: the items are handled one after the other in
    a completion order chosen by the dispatcher, which is missing from
    the source. *)
Definition handle_all (batch : list item) (order : list nat)
  : list (option response) :=
  foldl (handle batch) (empty_slots batch) order.

(** Modelled from the spec: the batch response keeps the recorded
    replies in position order; a one-way item contributes no slot.  The
    dispatcher is missing from the source. *)
Definition assemble (slots : list (option response)) : list response :=
  omap id slots.

(** Modelled from the spec: the batch response assembled for a batch
    handled in the given order.  The dispatcher is missing from the
    source. *)
Definition batch_response (batch : list item) (order : list nat)
  : list response :=
  assemble (handle_all batch order).
End model.
End BatchAssembly.

(** * Properties of the base classes *)

(** ** Method resolution *)

Lemma mro_total (c : cls) : mro_fuel 4 c = Some (mro c).
Proof. destruct c; vm_compute; reflexivity. Qed.

Lemma mro_table :
  mro object = [object] ∧
  mro list_ = [list_; object] ∧
  mro RPCRequest = [RPCRequest; object] ∧
  mro RPCBatchRequest = [RPCBatchRequest; list_; RPCRequest; object] ∧
  mro RPCResponse = [RPCResponse; object] ∧
  mro RPCBatchResponse = [RPCBatchResponse; list_; RPCResponse; object] ∧
  mro RPCErrorResponse = [RPCErrorResponse; RPCResponse; object] ∧
  mro RPCSuccessResponse = [RPCSuccessResponse; RPCResponse; object] ∧
  mro RPCProtocol = [RPCProtocol; object] ∧
  mro RPCBatchProtocol = [RPCBatchProtocol; RPCProtocol; object].
Proof. repeat split; vm_compute; reflexivity. Qed.

(** The subclasses of the three roots, by enumeration of the MRO. *)
Lemma request_classes (c : cls) :
  issubclass c RPCRequest = true → c = RPCRequest ∨ c = RPCBatchRequest.
Proof. destruct c; vm_compute; intros H; try discriminate H; auto. Qed.

Lemma protocol_classes (c : cls) :
  issubclass c RPCProtocol = true → c = RPCProtocol ∨ c = RPCBatchProtocol.
Proof. destruct c; vm_compute; intros H; try discriminate H; auto. Qed.

Lemma response_classes (c : cls) :
  issubclass c RPCResponse = true →
  c = RPCResponse ∨ c = RPCBatchResponse ∨
  c = RPCErrorResponse ∨ c = RPCSuccessResponse.
Proof. destruct c; vm_compute; intros H; try discriminate H; auto. Qed.

(** Every method body of the module raises, whatever it is applied to. *)
Lemma method_bodies_raise (self a b c d : value) :
  RPCRequest_error_respond self a = not_implemented ∧
  RPCRequest_respond self a = not_implemented ∧
  RPCRequest_serialize self = not_implemented ∧
  RPCResponse_serialize self = not_implemented ∧
  RPCBatchResponse_create_batch_response self = not_implemented ∧
  RPCBatchResponse_serialize self = not_implemented ∧
  RPCProtocol_create_request self a b c d = not_implemented ∧
  RPCProtocol_create_error_response self a = not_implemented ∧
  RPCProtocol_parse_request self a = not_implemented ∧
  RPCProtocol_parse_reply self a = not_implemented ∧
  RPCBatchProtocol_create_batch_request self a = not_implemented.
Proof. repeat split. Qed.

(** No function object of the module ever returns: a call with an
    admissible number of arguments raises [RuntimeError], any other raises
    [TypeError]. *)
Lemma module_functions_never_return (c : cls) name f self args :
  class_dict c !! name = Some (Method f) →
  returns (call f self args) = false.
Proof.
  destruct c; simpl; intros H.
  all: try (rewrite lookup_empty in H; discriminate H).
  all: repeat
    (match type of H with
     | <[ ?k := _ ]> _ !! ?n = _ =>
         destruct (decide (k = n)) as [<-|?];
         [ rewrite lookup_insert_eq in H
         | rewrite lookup_insert_ne in H by assumption ]
     | ∅ !! _ = _ => rewrite lookup_empty in H; discriminate H
     end);
    try discriminate H.
  all: injection H as <-.
  all: destruct args as [|? [|? [|? [|? [|? ?]]]]]; reflexivity.
Qed.

(** C10: every operation of the base classes raises
    [RuntimeError('Not implemented')] on every input and returns nothing:
    [respond], [error_respond] and [serialize] of a request, [serialize]
    of a response, [create_request] (with or without its optional
    arguments), [create_error_response], [parse_request] and
    [parse_reply] of a protocol, and [create_batch_request] of a batch
    protocol. *)
Theorem base_operations_not_implemented
    (items : list value) (x method args kwargs one_way : value) :
  invoke (VInst RPCRequest items) "respond" [x] = not_implemented ∧
  invoke (VInst RPCRequest items) "error_respond" [x] = not_implemented ∧
  invoke (VInst RPCRequest items) "serialize" [] = not_implemented ∧
  invoke (VInst RPCResponse items) "serialize" [] = not_implemented ∧
  invoke (VInst RPCProtocol items) "create_request"
         [method; args; kwargs; one_way] = not_implemented ∧
  invoke (VInst RPCProtocol items) "create_request"
         [method; args; kwargs] = not_implemented ∧
  invoke (VInst RPCProtocol items) "create_request"
         [method; args] = not_implemented ∧
  invoke (VInst RPCProtocol items) "create_request"
         [method] = not_implemented ∧
  invoke (VInst RPCProtocol items) "create_error_response" [x]
    = not_implemented ∧
  invoke (VInst RPCProtocol items) "parse_request" [x] = not_implemented ∧
  invoke (VInst RPCProtocol items) "parse_reply" [x] = not_implemented ∧
  invoke (VInst RPCBatchProtocol items) "create_batch_request" [x]
    = not_implemented ∧
  invoke (VInst RPCBatchProtocol items) "create_batch_request" []
    = not_implemented.
Proof. repeat split; vm_compute; reflexivity. Qed.

(** C2: [is_error] discriminates the response variants.  Every
    [RPCErrorResponse] instance reads [True], every [RPCSuccessResponse]
    instance reads [False], and among all classes of the module (the base
    [RPCResponse] and [RPCBatchResponse] included) an instance has a true
    [is_error] exactly when its class is [RPCErrorResponse]. *)
Theorem is_error_discriminant (c : cls) (items : list value) :
  data_attr (VInst RPCErrorResponse items) "is_error" = Return (VBool true) ∧
  data_attr (VInst RPCSuccessResponse items) "is_error"
    = Return (VBool false) ∧
  is_error_true (VInst c items) = bool_decide (c = RPCErrorResponse).
Proof.
  split; [|split].
  - vm_compute; reflexivity.
  - vm_compute; reflexivity.
  - destruct c; vm_compute; reflexivity.
Qed.




(** ** The operations are abstract *)

(** What a class inherits and what it defines itself. *)
Lemma providers :
  provider RPCBatchRequest "respond" = Some RPCRequest ∧
  provider RPCBatchRequest "error_respond" = Some RPCRequest ∧
  provider RPCBatchRequest "serialize" = Some RPCRequest ∧
  provider RPCBatchRequest "create_batch_response" = None ∧
  provider RPCBatchResponse "create_batch_response" = Some RPCBatchResponse ∧
  provider RPCBatchResponse "serialize" = Some RPCBatchResponse ∧
  provider RPCBatchResponse "is_error" = Some RPCResponse ∧
  provider RPCBatchProtocol "parse_request" = Some RPCProtocol ∧
  provider RPCBatchProtocol "create_batch_request" = Some RPCBatchProtocol.
Proof. repeat split; vm_compute; reflexivity. Qed.

(** C1, as stated, fails on the empty batch request, all of whose
    elements are one-way: [create_batch_response()] returns neither
    [None] nor a batch response there. *)
Lemma create_batch_response_counterexample :
  ¬ ∃ v, invoke (new_list RPCBatchRequest []) "create_batch_response" []
           = Return v ∧
         (v = VNone ∨ isinstance v RPCBatchResponse = true).
Proof. intros (v & H & _). vm_compute in H. discriminate H. Qed.

(** C1, amended: [create_batch_response] is an abstract operation.  On
    every instance whose class provides it, whatever its elements, the
    call raises [RuntimeError('Not implemented')]: it returns neither
    [None] nor a container. *)
Theorem create_batch_response_not_implemented
    (c d : cls) (items : list value) :
  provider c "create_batch_response" = Some d →
  invoke (VInst c items) "create_batch_response" [] = not_implemented ∧
  returns (invoke (VInst c items) "create_batch_response" []) = false.
Proof.
  destruct c; vm_compute; intros H; try discriminate H; split; reflexivity.
Qed.

Lemma create_batch_response_not_implemented_witness :
  invoke (VInst RPCBatchResponse [VInst RPCSuccessResponse []])
         "create_batch_response" [] = not_implemented ∧
  returns (invoke (VInst RPCBatchResponse [VInst RPCSuccessResponse []])
                  "create_batch_response" []) = false.
Proof.
  apply (create_batch_response_not_implemented
           RPCBatchResponse RPCBatchResponse).
  vm_compute; reflexivity.
Defined.

(** C5, as stated, fails: handing the batch protocol a batch with a
    malformed element yields no batch request at all. *)
Lemma parse_batch_counterexample :
  ¬ ∃ v, invoke (new RPCBatchProtocol) "parse_request"
           [VBytes "[{method: add, params: [2, 3]}, 17]"] = Return v ∧
         isinstance v RPCBatchRequest = true.
Proof. intros (v & H & _). vm_compute in H. discriminate H. Qed.

(** C5, amended: the batch protocol defines [create_batch_request] only
    and inherits [parse_request] from the base protocol; on every input,
    a batch or not, malformed or not, it raises
    [RuntimeError('Not implemented')] and builds no batch request.  A
    batch request is a list, and a request, whatever items it holds. *)
Theorem batch_parse_request_not_implemented
    (pitems items : list value) (data : value) :
  provider RPCBatchProtocol "parse_request" = Some RPCProtocol ∧
  provider RPCBatchProtocol "create_batch_request" = Some RPCBatchProtocol ∧
  invoke (VInst RPCBatchProtocol pitems) "parse_request" [data]
    = not_implemented ∧
  isinstance (new_list RPCBatchRequest items) list_ = true ∧
  isinstance (new_list RPCBatchRequest items) RPCRequest = true.
Proof. repeat split; vm_compute; reflexivity. Qed.

(** C6, as stated, fails: on malformed data the base [parse_request]
    raises nothing of the error classes of [..exc]. *)
Lemma parse_request_counterexample :
  ¬ ∃ name msg,
      invoke (new RPCProtocol) "parse_request" [VBytes "not valid data"]
        = Raise (Exn (ExcModule name) msg).
Proof. intros (name & msg & H). vm_compute in H. discriminate H. Qed.

(** C6, amended: for every input, malformed or not, [parse_request] of
    the base protocols fails with the builtin
    [RuntimeError('Not implemented')], which is none of the error classes
    of [..exc]; it returns no request. *)
Theorem parse_request_not_implemented
    (pc : cls) (pitems : list value) (data : value) :
  issubclass pc RPCProtocol = true →
  ∃ e, invoke (VInst pc pitems) "parse_request" [data] = Raise e ∧
       e = Exn RuntimeError "Not implemented" ∧
       from_exc_module (exn_class e) = false.
Proof.
  intros Hp. exists (Exn RuntimeError "Not implemented").
  destruct (protocol_classes _ Hp) as [-> | ->];
    repeat split; vm_compute; reflexivity.
Qed.

Lemma parse_request_not_implemented_witness :
  ∃ e, invoke (VInst RPCProtocol []) "parse_request"
         [VBytes "not valid data"] = Raise e ∧
       e = Exn RuntimeError "Not implemented" ∧
       from_exc_module (exn_class e) = false.
Proof.
  apply (parse_request_not_implemented RPCProtocol).
  vm_compute; reflexivity.
Defined.

(** C8, as stated, fails: for the error of a failed parse, given as a
    string, [create_error_response] returns no error response. *)
Lemma create_error_response_counterexample :
  ¬ ∃ v, invoke (new RPCProtocol) "create_error_response"
           [VStr "Could not parse request"] = Return v ∧
         isinstance v RPCErrorResponse = true.
Proof. intros (v & H & _). vm_compute in H. discriminate H. Qed.

(** C8, amended: for every error value, an exception object or a plain
    string, [create_error_response] of the base protocols raises
    [RuntimeError('Not implemented')]; it returns nothing, neither [None]
    nor an error response. *)
Theorem create_error_response_not_implemented
    (pc : cls) (pitems : list value) (error : value) :
  issubclass pc RPCProtocol = true →
  invoke (VInst pc pitems) "create_error_response" [error]
    = not_implemented ∧
  returns (invoke (VInst pc pitems) "create_error_response" [error])
    = false.
Proof.
  intros Hp.
  destruct (protocol_classes _ Hp) as [-> | ->];
    split; vm_compute; reflexivity.
Qed.

Lemma create_error_response_not_implemented_witness :
  invoke (VInst RPCProtocol []) "create_error_response"
         [VExc (ExcModule "InvalidRequestError") "not valid data"]
    = not_implemented ∧
  returns (invoke (VInst RPCProtocol []) "create_error_response"
                  [VExc (ExcModule "InvalidRequestError") "not valid data"])
    = false.
Proof.
  apply (create_error_response_not_implemented RPCProtocol).
  vm_compute; reflexivity.
Defined.

(** ** Assembly of a batch response *)

Section assembly.
Import BatchAssembly.
Context {item response : Type}.
Variable one_way : item → bool.
Variable answer : item → response.

Local Abbreviation reply := (reply one_way answer).
Local Abbreviation handle := (handle one_way answer).

Lemma handle_length (batch : list item) slots pos :
  length (handle batch slots pos) = length slots.
Proof.
  unfold BatchAssembly.handle. destruct (batch !! pos); [|done].
  apply length_insert.
Qed.

Lemma foldl_handle_length (batch : list item) order slots :
  length (foldl (handle batch) slots order) = length slots.
Proof.
  revert slots. induction order as [|x order IH]; intros slots; simpl.
  - done.
  - by rewrite IH, handle_length.
Qed.

(** After handling the positions of [order], a slot holds the reply of
    its item if its position was handled and is unchanged otherwise. *)
Lemma foldl_handle_lookup (batch : list item) order slots (p : nat) :
  length slots = length batch →
  foldl (handle batch) slots order !! p =
    if decide (p ∈ order) then reply <$> batch !! p else slots !! p.
Proof.
  revert slots.
  induction order as [|x order IH]; intros slots Hlen.
  - rewrite decide_False by apply not_elem_of_nil. done.
  - change (foldl (handle batch) slots (x :: order))
      with (foldl (handle batch) (handle batch slots x) order).
    rewrite IH by (by rewrite handle_length).
    destruct (decide (p ∈ order)) as [Hin|Hnin].
    + rewrite decide_True by (by apply elem_of_cons; right). done.
    + destruct (decide (p = x)) as [->|Hne].
      * rewrite decide_True by (by apply elem_of_cons; left).
        unfold BatchAssembly.handle.
        destruct (batch !! x) as [r|] eqn:E; simpl.
        -- apply list_lookup_insert_eq. rewrite Hlen.
           by eapply lookup_lt_Some.
        -- apply lookup_ge_None. rewrite Hlen.
           by apply lookup_ge_None.
      * rewrite decide_False
          by (intros [?|?]%elem_of_cons; [by apply Hne|by apply Hnin]).
        unfold BatchAssembly.handle.
        destruct (batch !! x); [|done].
        by rewrite list_lookup_insert_ne.
Qed.

(** Once every position was handled, in whatever order, the slots hold
    the replies in request order. *)
Lemma handle_all_permutation (batch : list item) (order : list nat) :
  order ≡ₚ seq 0 (length batch) →
  handle_all one_way answer batch order = reply <$> batch.
Proof.
  intros Hperm. apply list_eq; intros p. unfold handle_all.
  rewrite foldl_handle_lookup by apply length_replicate.
  rewrite list_lookup_fmap.
  destruct (decide (p ∈ order)) as [Hin|Hnin]; [done|].
  assert (length batch ≤ p)%nat as Hge.
  { destruct (decide (p < length batch)%nat) as [Hlt|]; [|lia].
    exfalso. apply Hnin. rewrite Hperm. apply elem_of_seq. lia. }
  rewrite (proj2 (lookup_ge_None batch p)) by done. simpl.
  apply lookup_ge_None. unfold empty_slots. by rewrite length_replicate.
Qed.

Lemma assemble_replies (batch : list item) :
  assemble (reply <$> batch) = answer <$> reply_expecting one_way batch.
Proof.
  unfold assemble, reply_expecting.
  induction batch as [|r batch IH]; [done|].
  rewrite fmap_cons, filter_cons. simpl. unfold BatchAssembly.reply at 1.
  destruct (one_way r) eqn:E; simpl.
  - exact IH.
  - f_equal. exact IH.
Qed.

(** C4: when a batch is handled in any order that goes through every
    position once, the assembled batch response has one entry per item
    that expects a reply, and its [i]-th entry is the response to the
    [i]-th reply-expecting item of the request: the responses are those
    of the reply-expecting items, in request order. *)
Theorem batch_response_order (batch : list item) (order : list nat) :
  order ≡ₚ seq 0 (length batch) →
  length (batch_response one_way answer batch order)
    = length (reply_expecting one_way batch) ∧
  (∀ i : nat,
     batch_response one_way answer batch order !! i
       = answer <$> reply_expecting one_way batch !! i) ∧
  batch_response one_way answer batch order
    = answer <$> reply_expecting one_way batch.
Proof.
  intros Hperm.
  assert (batch_response one_way answer batch order
            = answer <$> reply_expecting one_way batch) as Heq.
  { unfold batch_response.
    by rewrite handle_all_permutation, assemble_replies. }
  rewrite Heq. split; [apply length_fmap|]. split; [|done].
  intros i. apply list_lookup_fmap.
Qed.
End assembly.

Example batch_response_shuffled :
  BatchAssembly.batch_response (@snd string bool) fst
    [("add", false); ("log", true); ("sub", false)] [2; 0; 1]%nat
  = ["add"; "sub"].
Proof. reflexivity. Qed.

Lemma batch_response_order_witness :
  length (BatchAssembly.batch_response (@snd string bool) fst
            [("add", false); ("log", true); ("sub", false)] [2; 0; 1]%nat)
    = length (BatchAssembly.reply_expecting (@snd string bool)
                [("add", false); ("log", true); ("sub", false)]) ∧
  (∀ i : nat,
     BatchAssembly.batch_response (@snd string bool) fst
       [("add", false); ("log", true); ("sub", false)] [2; 0; 1]%nat !! i
     = fst <$> BatchAssembly.reply_expecting (@snd string bool)
                 [("add", false); ("log", true); ("sub", false)] !! i) ∧
  BatchAssembly.batch_response (@snd string bool) fst
    [("add", false); ("log", true); ("sub", false)] [2; 0; 1]%nat
  = fst <$> BatchAssembly.reply_expecting (@snd string bool)
              [("add", false); ("log", true); ("sub", false)].
Proof.
  apply (batch_response_order (@snd string bool) fst
           [("add", false); ("log", true); ("sub", false)] [2; 0; 1]%nat).
  simpl. exact (Permutation_cons_append [0; 1]%nat 2%nat).
Defined.

(** * Further properties of the base classes *)

(** ** The hierarchy *)

Lemma mapM_mro_fuel_step (n : nat) (l : list cls) (lins : list (list cls)) :
  (∀ c k, mro_fuel n c = Some k → mro_fuel (S n) c = Some k) →
  mapM (mro_fuel n) l = Some lins →
  mapM (mro_fuel (S n)) l = Some lins.
Proof.
  intros Hstep Hm. apply mapM_Some. apply mapM_Some in Hm.
  induction Hm as [|c k l lins Hc _ IH]; constructor; auto.
Qed.

(** More fuel never changes a linearisation that was reached. *)
Lemma mro_fuel_step (n : nat) (c : cls) (k : list cls) :
  mro_fuel n c = Some k → mro_fuel (S n) c = Some k.
Proof.
  revert c k. induction n as [|n IH]; intros c k H; [discriminate H|].
  change (mro_fuel (S n) c) with
    (lins ← mapM (mro_fuel n) (bases c);
     rest ← c3_merge (S (length (concat lins) + length (bases c)))
                     (lins ++ [bases c]);
     Some (c :: rest)) in H.
  change (mro_fuel (S (S n)) c) with
    (lins ← mapM (mro_fuel (S n)) (bases c);
     rest ← c3_merge (S (length (concat lins) + length (bases c)))
                     (lins ++ [bases c]);
     Some (c :: rest)).
  destruct (mapM (mro_fuel n) (bases c)) as [lins|] eqn:E;
    [|discriminate H].
  rewrite (mapM_mro_fuel_step n (bases c) lins IH E). exact H.
Qed.

(** X1: every class statement of the module has a consistent method
    resolution order.  The C3 linearisation of its base list succeeds, and
    with any larger amount of fuel gives the same order; the order starts
    with the class itself, ends with [object], repeats no class, lists the
    bases in the order of the class statement, and extends the order of
    every base. *)
Theorem mro_linearisation (c : cls) (n : nat) :
  mro_fuel (4 + n) c = Some (mro c) ∧
  head (mro c) = Some c ∧
  last (mro c) = Some object ∧
  NoDup (mro c) ∧
  bases c `sublist_of` mro c ∧
  Forall (λ b, mro b `sublist_of` mro c) (bases c).
Proof.
  split.
  { induction n as [|n IH]; [apply mro_total|].
    replace (4 + S n)%nat with (S (4 + n)) by lia.
    by apply mro_fuel_step. }
  split; [destruct c; vm_compute; reflexivity|].
  split; [destruct c; vm_compute; reflexivity|].
  split; [destruct c; apply (bool_decide_unpack _); vm_compute; reflexivity|].
  split.
  - destruct c; vm_compute;
      repeat first
        [ apply sublist_nil | apply sublist_skip | apply sublist_cons ].
  - destruct c; cbn [bases];
      repeat apply Forall_cons_2; try apply Forall_nil_2; vm_compute;
      repeat first
        [ apply sublist_nil | apply sublist_skip | apply sublist_cons ].
Qed.

(** X2: [issubclass] is the reflexive and transitive closure of the base
    lists: a class is a subclass of [d] exactly when it is [d] or one of
    its declared bases is a subclass of [d]. *)
Theorem issubclass_bases (c d : cls) :
  issubclass c d =
    bool_decide (c = d) || existsb (λ b, issubclass b d) (bases c).
Proof. destruct c, d; vm_compute; reflexivity. Qed.

(** X3: the roles of the classes are disjoint.  No class is two of
    request, response and protocol; no class is both an error response
    and a success response, and a batch response is neither; the lists
    among the classes are the two batch containers; every class derives
    from [object]. *)
Theorem class_roles (c : cls) :
  issubclass c RPCRequest && issubclass c RPCResponse = false ∧
  issubclass c RPCRequest && issubclass c RPCProtocol = false ∧
  issubclass c RPCResponse && issubclass c RPCProtocol = false ∧
  issubclass c RPCErrorResponse && issubclass c RPCSuccessResponse = false ∧
  issubclass RPCBatchResponse RPCErrorResponse = false ∧
  issubclass RPCBatchResponse RPCSuccessResponse = false ∧
  issubclass c list_ =
    bool_decide (c ∈ [list_; RPCBatchRequest; RPCBatchResponse]) ∧
  issubclass c object = true.
Proof. destruct c; vm_compute; repeat split. Qed.

(** ** Attributes *)

(** X4: the payload attributes follow the variant.  Among the response
    classes [result] is readable exactly on [RPCSuccessResponse] and
    [error] exactly on [RPCErrorResponse], each with the default [None];
    on the other response classes reading them is an [AttributeError]. *)
Theorem response_payload_attributes (c : cls) (items : list value) :
  issubclass c RPCResponse = true →
  observe (data_attr (VInst c items) "result") =
    (if decide (c = RPCSuccessResponse) then inl VNone
     else inr AttributeError) ∧
  observe (data_attr (VInst c items) "error") =
    (if decide (c = RPCErrorResponse) then inl VNone
     else inr AttributeError).
Proof.
  intros Hc.
  destruct (response_classes _ Hc) as [-> | [-> | [-> | ->]]];
    split; vm_compute; reflexivity.
Qed.

Lemma response_payload_attributes_witness :
  observe (data_attr (VInst RPCBatchResponse [VInst RPCSuccessResponse []])
                     "result") =
    (if decide (RPCBatchResponse = RPCSuccessResponse) then inl VNone
     else inr AttributeError) ∧
  observe (data_attr (VInst RPCBatchResponse [VInst RPCSuccessResponse []])
                     "error") =
    (if decide (RPCBatchResponse = RPCErrorResponse) then inl VNone
     else inr AttributeError).
Proof.
  apply (response_payload_attributes RPCBatchResponse).
  vm_compute; reflexivity.
Defined.

(** X5: a request of either request class reads [unique_id], [method],
    [args] and [kwargs] as [None]; a batch request finds them, past
    [list], in [RPCRequest]. *)
Theorem request_attribute_defaults
    (rc : cls) (items : list value) (name : string) :
  issubclass rc RPCRequest = true →
  name ∈ ["unique_id"; "method"; "args"; "kwargs"] →
  data_attr (VInst rc items) name = Return VNone ∧
  provider rc name = Some RPCRequest.
Proof.
  intros Hr Hn.
  repeat (apply elem_of_cons in Hn as [-> | Hn]);
    [| | | | by apply elem_of_nil in Hn];
    destruct (request_classes _ Hr) as [-> | ->];
    split; vm_compute; reflexivity.
Qed.

Lemma request_attribute_defaults_witness :
  data_attr (VInst RPCBatchRequest [VInst RPCRequest []]) "kwargs"
    = Return VNone ∧
  provider RPCBatchRequest "kwargs" = Some RPCRequest.
Proof.
  apply (request_attribute_defaults RPCBatchRequest).
  - vm_compute; reflexivity.
  - apply (bool_decide_unpack _); vm_compute; reflexivity.
Defined.

(** ** Calls *)

(** The seventeen names are those the class bodies bind. *)
Lemma module_names_bound (name : string) :
  name ∈ module_names ↔ ∃ c, is_Some (class_dict c !! name).
Proof.
  split.
  - intros Hn. unfold module_names in Hn.
    repeat (apply elem_of_cons in Hn as [-> | Hn]);
      [..|by apply elem_of_nil in Hn].
    all: first
      [ by exists RPCRequest; vm_compute; eexists
      | by exists RPCResponse; vm_compute; eexists
      | by exists RPCBatchResponse; vm_compute; eexists
      | by exists RPCErrorResponse; vm_compute; eexists
      | by exists RPCSuccessResponse; vm_compute; eexists
      | by exists RPCProtocol; vm_compute; eexists
      | by exists RPCBatchProtocol; vm_compute; eexists ].
  - intros [c [a Ha]]. apply (bool_decide_unpack _).
    destruct c; simpl in Ha.
    all: try (rewrite lookup_empty in Ha; discriminate Ha).
    all: repeat
      (match type of Ha with
       | <[ ?k := _ ]> _ !! ?n = _ =>
           destruct (decide (k = n)) as [<-|?];
           [ vm_compute; reflexivity
           | rewrite lookup_insert_ne in Ha by assumption ]
       end).
    all: rewrite lookup_empty in Ha; discriminate Ha.
Qed.

(** An attribute found along the MRO is bound in some class body. *)
Lemma lookup_along_bound (l : list cls) (name : string) (a : attr) :
  lookup_along l name = Some a → ∃ d, class_dict d !! name = Some a.
Proof.
  induction l as [|c l IH]; simpl; [discriminate|].
  destruct (class_dict c !! name) as [a'|] eqn:E.
  - intros [= <-]. by exists c.
  - exact IH.
Qed.

(** X6: none of the names the module binds can be called for a value.
    On an instance of any class, for each of the seventeen names and
    whatever positional arguments are passed, the call raises: the name
    is missing, or it is a data attribute and not callable, or it is a
    method, which raises on every argument list. *)
Theorem module_calls_never_return
    (c : cls) (name : string) (items args : list value) :
  name ∈ module_names →
  returns (invoke (VInst c items) name args) = false.
Proof.
  intros _. unfold invoke, getattr, class_getattr.
  destruct (lookup_along (mro c) name) as [[v|f]|] eqn:E;
    [reflexivity| |reflexivity].
  apply lookup_along_bound in E as [d Hd].
  exact (module_functions_never_return d name f (VInst c items) args Hd).
Qed.

Lemma module_calls_never_return_witness :
  returns (invoke (VInst RPCBatchRequest [VInst RPCRequest []]) "respond"
                  [VInt 1; VInt 2]) = false.
Proof.
  apply (module_calls_never_return RPCBatchRequest "respond").
  apply (bool_decide_unpack _); vm_compute; reflexivity.
Defined.

(** X7: [serialize] is abstract on every response class.  The error and
    success responses inherit it from [RPCResponse], the batch response
    defines its own; on all four the call raises
    [RuntimeError('Not implemented')]. *)
Theorem response_serialize_not_implemented (c : cls) (items : list value) :
  issubclass c RPCResponse = true →
  invoke (VInst c items) "serialize" [] = not_implemented ∧
  provider c "serialize" =
    Some (if decide (c = RPCBatchResponse) then RPCBatchResponse
          else RPCResponse).
Proof.
  intros Hc.
  destruct (response_classes _ Hc) as [-> | [-> | [-> | ->]]];
    split; vm_compute; reflexivity.
Qed.

Lemma response_serialize_not_implemented_witness :
  invoke (VInst RPCErrorResponse []) "serialize" [] = not_implemented ∧
  provider RPCErrorResponse "serialize" =
    Some (if decide (RPCErrorResponse = RPCBatchResponse)
          then RPCBatchResponse else RPCResponse).
Proof.
  apply (response_serialize_not_implemented RPCErrorResponse).
  vm_compute; reflexivity.
Defined.

(** X8: what each subclass takes from its base, for the names the module
    binds.  [RPCBatchRequest] takes every name from where [RPCRequest]
    has it; [RPCBatchProtocol] provides [create_batch_request] itself and
    takes the rest from where [RPCProtocol] has it; [RPCSuccessResponse]
    provides [is_error] and [result] itself, [RPCErrorResponse] [is_error]
    and [error], [RPCBatchResponse] [create_batch_response] and
    [serialize], and each takes the rest from where [RPCResponse] has
    it. *)
Theorem subclass_overrides (name : string) :
  name ∈ module_names →
  provider RPCBatchRequest name = provider RPCRequest name ∧
  provider RPCBatchProtocol name =
    (if decide (name = "create_batch_request") then Some RPCBatchProtocol
     else provider RPCProtocol name) ∧
  provider RPCSuccessResponse name =
    (if decide (name ∈ ["is_error"; "result"]) then Some RPCSuccessResponse
     else provider RPCResponse name) ∧
  provider RPCErrorResponse name =
    (if decide (name ∈ ["is_error"; "error"]) then Some RPCErrorResponse
     else provider RPCResponse name) ∧
  provider RPCBatchResponse name =
    (if decide (name ∈ ["create_batch_response"; "serialize"])
     then Some RPCBatchResponse
     else provider RPCResponse name).
Proof.
  intros Hn. unfold module_names in Hn.
  repeat (apply elem_of_cons in Hn as [-> | Hn]);
    [..|by apply elem_of_nil in Hn].
  all: vm_compute; repeat split.
Qed.

Lemma subclass_overrides_witness :
  provider RPCBatchRequest "serialize" = provider RPCRequest "serialize" ∧
  provider RPCBatchProtocol "serialize" =
    (if decide ("serialize" = "create_batch_request")
     then Some RPCBatchProtocol
     else provider RPCProtocol "serialize") ∧
  provider RPCSuccessResponse "serialize" =
    (if decide ("serialize" ∈ ["is_error"; "result"])
     then Some RPCSuccessResponse
     else provider RPCResponse "serialize") ∧
  provider RPCErrorResponse "serialize" =
    (if decide ("serialize" ∈ ["is_error"; "error"])
     then Some RPCErrorResponse
     else provider RPCResponse "serialize") ∧
  provider RPCBatchResponse "serialize" =
    (if decide ("serialize" ∈ ["create_batch_response"; "serialize"])
     then Some RPCBatchResponse
     else provider RPCResponse "serialize").
Proof.
  apply (subclass_overrides "serialize").
  apply (bool_decide_unpack _); vm_compute; reflexivity.
Defined.

(** X9: [create_batch_request] exists on the batch protocol only.  On a
    plain [RPCProtocol] the call is an [AttributeError]; on
    [RPCBatchProtocol] it raises [RuntimeError] when given at most one
    positional argument ([requests] defaults to [None]) and is a
    [TypeError] with more. *)
Theorem create_batch_request_batch_only
    (pc : cls) (pitems args : list value) :
  issubclass pc RPCProtocol = true →
  observe (invoke (VInst pc pitems) "create_batch_request" args) =
    inr (if decide (pc = RPCBatchProtocol)
         then if bool_decide (length args ≤ 1)%nat
              then RuntimeError else TypeError
         else AttributeError).
Proof.
  intros Hp.
  destruct (protocol_classes _ Hp) as [-> | ->].
  - reflexivity.
  - destruct args as [|? [|? ?]]; reflexivity.
Qed.

Lemma create_batch_request_batch_only_witness :
  observe (invoke (VInst RPCProtocol []) "create_batch_request"
                  [VList []]) =
    inr (if decide (RPCProtocol = RPCBatchProtocol)
         then if bool_decide (length [VList []] ≤ 1)%nat
              then RuntimeError else TypeError
         else AttributeError).
Proof.
  apply (create_batch_request_batch_only RPCProtocol).
  vm_compute; reflexivity.
Defined.

(** X10: [create_request] takes the method and up to three optional
    arguments.  Called on either protocol class with one to four
    positional arguments it raises [RuntimeError]; called with none, or
    with more than four, it is a [TypeError]. *)
Theorem create_request_arity (pc : cls) (pitems args : list value) :
  issubclass pc RPCProtocol = true →
  observe (invoke (VInst pc pitems) "create_request" args) =
    inr (if bool_decide (1 ≤ length args ≤ 4)%nat
         then RuntimeError else TypeError).
Proof.
  intros Hp.
  destruct (protocol_classes _ Hp) as [-> | ->];
    destruct args as [|? [|? [|? [|? [|? ?]]]]]; reflexivity.
Qed.

Lemma create_request_arity_witness :
  observe (invoke (VInst RPCBatchProtocol []) "create_request" []) =
    inr (if bool_decide (1 ≤ length (@nil value) ≤ 4)%nat
         then RuntimeError else TypeError).
Proof.
  apply (create_request_arity RPCBatchProtocol).
  vm_compute; reflexivity.
Defined.

(** X11: the three operations of a request are abstract on both request
    classes.  A batch request finds [respond], [error_respond] and
    [serialize], past [list], in [RPCRequest], and on either class each
    call raises [RuntimeError('Not implemented')] for every argument. *)
Theorem request_operations_not_implemented
    (rc : cls) (items : list value) (x e : value) :
  issubclass rc RPCRequest = true →
  invoke (VInst rc items) "respond" [x] = not_implemented ∧
  invoke (VInst rc items) "error_respond" [e] = not_implemented ∧
  invoke (VInst rc items) "serialize" [] = not_implemented ∧
  provider rc "respond" = Some RPCRequest ∧
  provider rc "error_respond" = Some RPCRequest ∧
  provider rc "serialize" = Some RPCRequest.
Proof.
  intros Hr.
  destruct (request_classes _ Hr) as [-> | ->];
    repeat split; vm_compute; reflexivity.
Qed.

Lemma request_operations_not_implemented_witness :
  invoke (VInst RPCBatchRequest [VInst RPCRequest []]) "respond" [VInt 5]
    = not_implemented ∧
  invoke (VInst RPCBatchRequest [VInst RPCRequest []]) "error_respond"
         [VStr "failed"] = not_implemented ∧
  invoke (VInst RPCBatchRequest [VInst RPCRequest []]) "serialize" []
    = not_implemented ∧
  provider RPCBatchRequest "respond" = Some RPCRequest ∧
  provider RPCBatchRequest "error_respond" = Some RPCRequest ∧
  provider RPCBatchRequest "serialize" = Some RPCRequest.
Proof.
  apply (request_operations_not_implemented RPCBatchRequest).
  vm_compute; reflexivity.
Defined.
